(** * The daily report pipeline of the Instagram reel bot (src/main.py)

    A shallow embedding of [send_daily_report] (main.py, lines 72-156): the
    Python string primitives it calls, the aggregation loop over the lines of
    the log file, the construction of the report text, and the effects of the
    run (file system, outbound HTTP request, root logger, clock) threaded
    through a state-and-exception monad.

    Text is modelled by [string]; a character stands for the code point of
    the same number (0..255). *)

From Stdlib Require Import Ascii String.
From stdpp Require Import gmap strings list pretty.

Open Scope string_scope.
Open Scope list_scope.

(** ** Python [str] primitives *)
Module PyStr.

(** [str.isspace] on one character, for code points below 256. *)
Definition is_space (c : ascii) : bool :=
  let n := N_of_ascii c in
  ((9 <=? n) && (n <=? 13) || (28 <=? n) && (n <=? 32)
   || (n =? 133) || (n =? 160))%N.

Fixpoint lstrip (s : string) : string :=
  match s with
  | EmptyString => EmptyString
  | String c s' => if is_space c then lstrip s' else s
  end.

Fixpoint rstrip (s : string) : string :=
  match s with
  | EmptyString => EmptyString
  | String c s' =>
      match rstrip s' with
      | EmptyString => if is_space c then EmptyString else String c EmptyString
      | r => String c r
      end
  end.

(** [s.strip()] *)
Definition strip (s : string) : string := lstrip (rstrip s).

(** [s] with the prefix [p] removed, when [s] starts with [p]. *)
Fixpoint drop_prefix (p s : string) : option string :=
  match p, s with
  | EmptyString, _ => Some s
  | String _ _, EmptyString => None
  | String a p', String b s' =>
      if Ascii.eqb a b then drop_prefix p' s' else None
  end.

(** The text before and after the first occurrence of [sep] in [s]. *)
Fixpoint cut (sep s : string) : option (string * string) :=
  match drop_prefix sep s with
  | Some rest => Some (EmptyString, rest)
  | None =>
      match s with
      | EmptyString => None
      | String c s' =>
          match cut sep s' with
          | Some (before, after) => Some (String c before, after)
          | None => None
          end
      end
  end.

(** [sub in s] *)
Definition contains (sub s : string) : bool :=
  match cut sub s with Some _ => true | None => false end.

(** [s.split(sep, maxsplit)] for a non-empty [sep]: at most [maxsplit] cuts,
    left to right. *)
Fixpoint split_max (maxsplit : nat) (sep s : string) : list string :=
  match maxsplit with
  | O => [s]
  | S n =>
      match cut sep s with
      | None => [s]
      | Some (before, after) => before :: split_max n sep after
      end
  end.

(** [s.split(sep)]: no bound on the number of cuts.  Every cut consumes a
    character, so [length s] cuts are never all used (see [split_unfold]). *)
Definition split (sep s : string) : list string :=
  split_max (String.length s) sep s.

(** [sep.join(l)] *)
Fixpoint join (sep : string) (l : list string) : string :=
  match l with
  | [] => EmptyString
  | [x] => x
  | x :: rest => x +:+ sep +:+ join sep rest
  end.

Definition LF : ascii := "010"%char.
Definition CR : ascii := "013"%char.
Definition nl : string := String LF EmptyString.

(** Text-mode reading with universal newlines: CR LF and a lone CR are read
    as LF. *)
Fixpoint universal_newlines (s : string) : string :=
  match s with
  | EmptyString => EmptyString
  | String c s' =>
      if Ascii.eqb c CR then
        String LF
          match s' with
          | String c' s'' =>
              if Ascii.eqb c' LF then universal_newlines s''
              else universal_newlines s'
          | EmptyString => EmptyString
          end
      else String c (universal_newlines s')
  end.

(** The lines of a text, each with its terminating LF (the last one may have
    none): what [f.readlines()] returns once newlines are translated. *)
Fixpoint keepends (s : string) : list string :=
  match s with
  | EmptyString => []
  | String c s' =>
      if Ascii.eqb c LF then nl :: keepends s'
      else match keepends s' with
           | [] => [String c EmptyString]
           | l :: ls => String c l :: ls
           end
  end.

Definition readlines (content : string) : list string :=
  keepends (universal_newlines content).

(** Truth value of an optional string: [None] and the empty string are
    false. *)
Definition truthy (o : option string) : bool :=
  match o with
  | Some (String _ _) => true
  | _ => false
  end.

(** How an f-string renders an optional string. *)
Definition fmt (o : option string) : string :=
  match o with
  | Some s => s
  | None => "None"
  end.

End PyStr.

Import PyStr.

(** ** Exceptions

    Every exception the body of [send_daily_report] can meet is a subclass of
    Python's [Exception]; [exn_msg] is what [str(e)] gives. *)
Inductive ExnClass := ValueError | FileNotFoundError | OSError | RequestException.

Record Exn := mkExn { exn_class : ExnClass; exn_msg : string }.

Inductive Result (A : Type) : Type :=
| Ok (a : A)
| Raise (e : Exn).
Arguments Ok {A} a.
Arguments Raise {A} e.

Definition rbind {A B} (r : Result A) (k : A -> Result B) : Result B :=
  match r with
  | Ok a => k a
  | Raise e => Raise e
  end.

(** A [for] loop whose body may raise: the first exception ends the loop. *)
Fixpoint rfold {A B} (f : A -> B -> Result A) (l : list B) (a : A) : Result A :=
  match l with
  | [] => Ok a
  | x :: rest => rbind (f a x) (rfold f rest)
  end.

(** [x, y = l]: unpacking a list into two names. *)
Definition unpack2 (l : list string) : Result (string * string) :=
  match l with
  | [x; y] => Ok (x, y)
  | [] =>
      Raise (mkExn ValueError "not enough values to unpack (expected 2, got 0)")
  | [_] =>
      Raise (mkExn ValueError "not enough values to unpack (expected 2, got 1)")
  | _ => Raise (mkExn ValueError "too many values to unpack (expected 2)")
  end.

(** ** Aggregation: main.py, lines 85-116 *)

(** The five accumulators of lines 85-89.  [interactions_per_user] is a
    [defaultdict(int)]; its items are read back in insertion order, so it is
    kept as a list of pairs. *)
Record Agg := mkAgg {
  total_interactions : nat;
  unique_users : gset string;
  interactions_per_user : list (string * nat);
  user_names : gmap string string;
  detailed_logs : list string
}.

Definition agg_init : Agg := mkAgg 0 ∅ [] ∅ [].

(** [d[k] += 1] on a [defaultdict(int)]: a present key keeps its place, a new
    one goes last with count 1. *)
Fixpoint incr (k : string) (d : list (string * nat)) : list (string * nat) :=
  match d with
  | [] => [(k, 1)]
  | (k', n) :: d' =>
      if decide (k' = k) then (k', S n) :: d' else (k', n) :: incr k d'
  end.

(** Lines 103-105: one part of the payload. *)
Definition add_field (log_data : gmap string string) (part : string)
  : Result (gmap string string) :=
  if contains "=" part then
    rbind (unpack2 (split_max 1 "=" part))
      (fun '(key, value) => Ok (<[strip key := strip value]> log_data))
  else Ok log_data.

(** Lines 101-105: the dictionary of the payload's [key=value] parts. *)
Definition parse_fields (data : string) : Result (gmap string string) :=
  rfold add_field (split ", " data) ∅.

(** Line 95. *)
Definition count_line (a : Agg) : Agg :=
  mkAgg (S (total_interactions a)) (unique_users a) (interactions_per_user a)
        (user_names a) (detailed_logs a).

(** Line 116: the f-string of the detailed log. *)
Definition detail_line (timestamp : string) (user_name : option string)
    (user_id : string) (url : option string) : string :=
  timestamp +:+ " | " +:+ fmt user_name +:+ " (" +:+ user_id +:+ ") -> "
    +:+ fmt url.

(** Lines 112-116: the body of [if user_id:]. *)
Definition record_user (a : Agg) (timestamp user_id : string)
    (user_name url : option string) : Agg :=
  mkAgg (total_interactions a)
        ({[user_id]} ∪ unique_users a)
        (incr user_id (interactions_per_user a))
        (match user_name with
         | Some name =>
             if truthy user_name then <[user_id := name]> (user_names a)
             else user_names a
         | None => user_names a
         end)
        (detailed_logs a ++ [detail_line timestamp user_name user_id url]).

(** Lines 92-116: the body of the loop over the log lines.  [continue] is
    the return of the accumulators as they stand. *)
Definition step (a : Agg) (log : string) : Result Agg :=
  if negb (contains "UserID=" log) then Ok a
  else
    let a := count_line a in
    match unpack2 (split_max 1 " | " (strip log)) with
    | Raise e =>
        match exn_class e with
        | ValueError => Ok a
        | _ => Raise e
        end
    | Ok (timestamp, data) =>
        rbind (parse_fields data) (fun log_data =>
          let user_id := log_data !! "UserID" in
          let user_name := log_data !! "Username" in
          let url := log_data !! "URL" in
          match user_id with
          | Some uid =>
              if truthy user_id
              then Ok (record_user a timestamp uid user_name url)
              else Ok a
          | None => Ok a
          end)
    end.

(** Lines 85-116. *)
Definition aggregate (log_lines : list string) : Result Agg :=
  rfold step log_lines agg_init.

(** ** Rendering: main.py, lines 119-129 *)

(** Line 126: the bullet of one user. *)
Definition user_line (names : gmap string string) (item : string * nat)
  : string :=
  let '(user_id, count) := item in
  let name := default "N/A" (names !! user_id) in
  "* **User:** " +:+ name +:+ " (ID: `" +:+ user_id
    +:+ "`) - **Interactions:** " +:+ pretty count +:+ nl.

(** Lines 119-129: [formatted_report], grown by successive [+=]. *)
Definition render (a : Agg) (date : string) : string :=
  let formatted_report :=
    "# Daily User Interaction Report (" +:+ date +:+ ")" +:+ nl +:+ nl in
  let formatted_report := formatted_report +:+
    "**Total Interactions:** " +:+ pretty (total_interactions a) +:+ nl in
  let formatted_report := formatted_report +:+
    "**Unique Users:** " +:+ pretty (size (unique_users a)) +:+ nl +:+ nl in
  let formatted_report := formatted_report +:+
    "### Interactions Per User" +:+ nl in
  let formatted_report :=
    fold_left (fun r item => r +:+ user_line (user_names a) item)
              (interactions_per_user a) formatted_report in
  let formatted_report := formatted_report +:+
    nl +:+ "### Detailed Log" +:+ nl in
  formatted_report +:+
    "```" +:+ nl +:+ join nl (detailed_logs a) +:+ nl +:+ "```" +:+ nl.

(** ** The world of a run *)

Inductive Level := WARNING | INFO | ERROR.

Inductive Mode := ModeR | ModeW | ModeRB.

(** What a run does to the outside, in the order it does it: records handed
    to the root logger, files opened, the request sent, files removed. *)
Inductive Event :=
| EvLog (level : Level) (msg : string)
| EvOpen (path : string) (mode : Mode)
| EvPut (url filename body : string)
| EvRemove (path : string).

Record World := mkWorld {
  fs : gmap string string;     (* path -> content of the file *)
  ticks : nat;                 (* calls of datetime.now() so far *)
  trace : list Event
}.

Record Response := mkResponse { status_code : Z; text : string }.

Inductive IOop := Open (path : string) (mode : Mode) | Remove (path : string).

(** What the run does not decide: the date at each reading of the clock,
    which file operations fail (with the message of the [OSError]), and what
    the notification service answers to a request, or the exception the
    request ends in. *)
Record Env := mkEnv {
  today : nat -> string;
  io_fault : IOop -> option string;
  http_put : string -> string -> string -> Result Response
}.

Definition M (A : Type) : Type := World -> World * Result A.

#[global] Instance M_ret : MRet M := fun A a w => (w, Ok a).
#[global] Instance M_bind : MBind M := fun A B k m w =>
  match m w with
  | (w', Ok a) => k a w'
  | (w', Raise e) => (w', Raise e)
  end.

Definition raise {A} (e : Exn) : M A := fun w => (w, Raise e).

Definition lift {A} (r : Result A) : M A := fun w => (w, r).

(** [try: body except Exception as e: handler] *)
Definition try_except {A} (body : M A) (handler : Exn -> M A) : M A :=
  fun w =>
    match body w with
    | (w', Ok a) => (w', Ok a)
    | (w', Raise e) => handler e w'
    end.

Definition record (w : World) (ev : Event) : World :=
  mkWorld (fs w) (ticks w) (trace w ++ [ev]).

Definition with_fs (w : World) (f : gmap string string) : World :=
  mkWorld f (ticks w) (trace w).

Definition emit (ev : Event) : M unit := fun w => (record w ev, Ok tt).

Definition set_fs (f : gmap string string) : M unit :=
  fun w => (with_fs w f, Ok tt).

Definition get_fs : M (gmap string string) := fun w => (w, Ok (fs w)).

(** [logging.warning], [logging.info], [logging.error]: the root logger,
    which has no handler on the log file. *)
Definition logging (level : Level) (msg : string) : M unit :=
  emit (EvLog level msg).

(** [datetime.now().strftime('%Y-%m-%d')] *)
Definition strftime_now (env : Env) : M string :=
  fun w => (mkWorld (fs w) (S (ticks w)) (trace w), Ok (today env (ticks w))).

(** [os.path.exists(path)] *)
Definition path_exists (path : string) : M bool :=
  f ← get_fs; mret (bool_decide (is_Some (f !! path))).

Definition no_such_file (path : string) : Exn :=
  mkExn FileNotFoundError
        ("[Errno 2] No such file or directory: '" +:+ path +:+ "'").

(** [with open(path, mode) as f: f.read()] for the two reading modes. *)
Definition read_file (env : Env) (path : string) (mode : Mode) : M string :=
  emit (EvOpen path mode);;
  f ← get_fs;
  match f !! path with
  | None => raise (no_such_file path)
  | Some content =>
      match io_fault env (Open path mode) with
      | Some msg => raise (mkExn OSError msg)
      | None => mret content
      end
  end.

(** [with open(path, 'w') as f: f.write(content)] *)
Definition write_file (env : Env) (path content : string) : M unit :=
  emit (EvOpen path ModeW);;
  match io_fault env (Open path ModeW) with
  | Some msg => raise (mkExn OSError msg)
  | None => f ← get_fs; set_fs (<[path := content]> f)
  end.

(** [os.remove(path)] *)
Definition os_remove (env : Env) (path : string) : M unit :=
  emit (EvRemove path);;
  f ← get_fs;
  match f !! path with
  | None => raise (no_such_file path)
  | Some _ =>
      match io_fault env (Remove path) with
      | Some msg => raise (mkExn OSError msg)
      | None => set_fs (delete path f)
      end
  end.

(** [requests.put(url, data=f, headers={'Filename': filename})] *)
Definition requests_put (env : Env) (url filename body : string) : M Response :=
  emit (EvPut url filename body);;
  lift (http_put env url filename body).

(** ** The pipeline: main.py, lines 72-156 *)

Definition NTFY_TOPIC : string := "telegram_bot_reports".
Definition LOG_FILE : string := "reports.log".

(** Lines 35-38. *)
Definition get_report_title (env : Env) : M string :=
  today_date ← strftime_now env;
  mret ("Telegram Bot Report - " +:+ today_date).

(** The ways a call ends.  The Python function returns [None] on each of
    them; the constructor records which one was taken: the [return] of line
    76, the [return] of line 83, the end of the [try] body (with the response
    the request got), the [except] clause (with the exception caught). *)
Inductive Exit :=
| NoLogFile
| NoLogLines
| Finished (response : Response)
| Caught (e : Exn).

(** Lines 74-153: the body of the [try]. *)
Definition report_body (env : Env) : M Exit :=
  present ← path_exists LOG_FILE;
  if negb present then
    logging WARNING "Report file does not exist, skipping daily report.";;
    mret NoLogFile
  else
    content ← read_file env LOG_FILE ModeR;
    let log_lines := readlines content in
    match log_lines with
    | [] =>
        logging INFO "No user interactions to report, skipping daily report.";;
        mret NoLogLines
    | _ :: _ =>
        a ← lift (aggregate log_lines);
        date ← strftime_now env;
        let formatted_report := render a date in
        date ← strftime_now env;
        let report_filename := "daily_report_" +:+ date +:+ ".md" in
        write_file env report_filename formatted_report;;
        data ← read_file env report_filename ModeRB;
        title ← get_report_title env;
        response ← requests_put env ("https://ntfy.sh/" +:+ NTFY_TOPIC) title data;
        (if bool_decide (status_code response = 200%Z) then
           logging INFO "Daily report sent to ntfy successfully.";;
           write_file env LOG_FILE ""
         else
           logging ERROR ("Failed to send report to ntfy. Status code: "
                          +:+ pretty (status_code response));;
           logging ERROR ("Response content: " +:+ text response));;
        os_remove env report_filename;;
        mret (Finished response)
    end.

(** Lines 72-156. *)
Definition send_daily_report (env : Env) : M Exit :=
  try_except (report_body env)
    (fun e =>
       logging ERROR ("Error while sending daily report: " +:+ exn_msg e);;
       mret (Caught e)).

(** The outcome of a run in the words of the specification (section 4.4):
    the two early returns are skips, the end of the [try] body is a delivery
    when the response status was 200 and a failed delivery otherwise, and a
    caught exception is a failed run. *)
Inductive ReportOutcome := Skipped | Delivered | DeliveryFailed.

Definition outcome (x : Exit) : ReportOutcome :=
  match x with
  | NoLogFile | NoLogLines => Skipped
  | Finished response =>
      if bool_decide (status_code response = 200%Z) then Delivered
      else DeliveryFailed
  | Caught _ => DeliveryFailed
  end.

(** [post m w Q]: the run of [m] from the world [w] ends in a world and a
    result that satisfy [Q]. *)
Definition post {A} (m : M A) (w : World) (Q : World -> Result A -> Prop) : Prop :=
  Q (m w).1 (m w).2.

(** The name of the report file of a run that starts at tick [t], and the
    title and address of its request. *)
Definition report_filename_at (env : Env) (t : nat) : string :=
  "daily_report_" +:+ today env (S t) +:+ ".md".

Definition report_title_at (env : Env) (t : nat) : string :=
  "Telegram Bot Report - " +:+ today env (S (S t)).

Definition ntfy_url : string := "https://ntfy.sh/" +:+ NTFY_TOPIC.

Definition sent_message : string := "Daily report sent to ntfy successfully.".

(** ** Concrete runs, used to exercise the model *)

Definition env_status (code : Z) : Env :=
  mkEnv (fun _ => "2025-09-04") (fun _ => None)
        (fun _ _ _ => Ok (mkResponse code "ok")).

Definition world_with_log (content : string) : World :=
  mkWorld {[LOG_FILE := content]} 0 [].

Definition bob_line : string :=
  "2025-09-04 15:10:00 | UserID=42, Username=Bob, URL=https://instagram.com/reels/abc"
    +:+ nl.

(** A log whose only line has no marker. *)
Definition garbage_log : string := "garbage" +:+ nl.

(** ** The accepted records of a log, in the words of the specification *)

(** The record the loop body holds when it reaches line 112 with a true
    [user_id] (sections 3 and 4.1 of the specification: the interaction
    record of an accepted line). *)
Record Interaction := mkInteraction {
  i_timestamp : string;
  i_user_id : string;
  i_user_name : option string;
  i_url : option string
}.

Definition accepted (log : string) : option Interaction :=
  if contains "UserID=" log then
    match unpack2 (split_max 1 " | " (strip log)) with
    | Ok (timestamp, data) =>
        match parse_fields data with
        | Ok log_data =>
            match log_data !! "UserID" with
            | Some uid =>
                if truthy (Some uid)
                then Some (mkInteraction timestamp uid (log_data !! "Username")
                                         (log_data !! "URL"))
                else None
            | None => None
            end
        | Raise _ => None
        end
    | Raise _ => None
    end
  else None.

(** What one line does to the accumulators, read off [step]. *)
Definition step_result (a : Agg) (log : string) : Agg :=
  if contains "UserID=" log then
    match accepted log with
    | Some r =>
        record_user (count_line a) (i_timestamp r) (i_user_id r)
                    (i_user_name r) (i_url r)
    | None => count_line a
    end
  else a.

(** Section 8 of the specification: the last non-empty user name seen for an
    id, in input order. *)
Definition name_for (uid : string) (r : Interaction) : option string :=
  if decide (i_user_id r = uid) then
    match i_user_name r with
    | Some name => if truthy (Some name) then Some name else None
    | None => None
    end
  else None.

Definition names_seen (uid : string) (records : list Interaction) : list string :=
  omap (name_for uid) records.

Definition last_nonempty_name (uid : string) (records : list Interaction)
  : option string :=
  last (names_seen uid records).

(** The distinct elements of a list in the order of their first
    occurrences. *)
Definition see (seen : list string) (x : string) : list string :=
  if decide (x ∈ seen) then seen else seen ++ [x].


(** The sum of the values of [interactions_per_user]. *)
Definition sum_counts (d : list (string * nat)) : nat := sum_list (d.*2).

(** The keys of the counter dictionary are the members of the set, without
    repetition. *)
Definition keys_inv (a : Agg) : Prop :=
  unique_users a = list_to_set ((interactions_per_user a).*1)
  /\ NoDup ((interactions_per_user a).*1).

(** ** Concrete log lines *)

(** The three records of section 8: Alice, an empty name, Bob, all of user
    u1. *)
Definition u1_lines : list string :=
  [ "2025-09-04 15:10:00 | UserID=u1, Username=Alice, URL=https://instagram.com/reel/a" +:+ nl;
    "2025-09-04 15:11:00 | UserID=u1, Username=, URL=https://instagram.com/reel/b" +:+ nl;
    "2025-09-04 15:12:00 | UserID=u1, Username=Bob, URL=https://instagram.com/reel/c" +:+ nl ].

(** A line that holds the marker and no timestamp separator. *)
Definition stray_line : string := "UserID=9" +:+ nl.

(** The log after one message whose text is a reel link, a line break and the
    text UserID=9: [handle_reel_url] matches the link at the start of the
    text (line 55) and logs the whole text (line 57), so the record takes two
    lines of the file. *)
Definition two_line_log : string :=
  "2025-09-04 15:10:00 | UserID=123, Username=John, URL=https://www.instagram.com/reel/abc"
    +:+ nl +:+ stray_line.

(** An accepted line whose payload has neither a Username nor a URL field. *)
Definition bare_line : string := "2025-09-04 15:10:00 | UserID=42" +:+ nl.

(** * Properties *)

(** ** Strings *)
Section strings.






(** [s.split(sep, 1)] has two parts exactly when [sep in s]. *)
Lemma split1_contains sep s :
  contains sep s = true -> exists x y, split_max 1 sep s = [x; y].
Proof.
  unfold contains. simpl. destruct (cut sep s) as [[b a]|]; [eauto | discriminate].
Qed.

Lemma split1_not_contains sep s :
  contains sep s = false -> split_max 1 sep s = [s].
Proof.
  unfold contains. simpl. by destruct (cut sep s) as [[b a]|].
Qed.

Lemma keepends_nil s : keepends s = [] -> s = "".
Proof.
  destruct s as [|c s]; [done|]. simpl.
  destruct (Ascii.eqb c LF); [done|]. by destruct (keepends s).
Qed.

Lemma universal_newlines_nil s : universal_newlines s = "" -> s = "".
Proof.
  destruct s as [|c s]; [done|]. simpl. by destruct (Ascii.eqb c CR).
Qed.

(** A file has no lines exactly when it is empty. *)
Lemma readlines_nil content : readlines content = [] <-> content = "".
Proof.
  split; [|by intros ->].
  intros H. by apply universal_newlines_nil, keepends_nil.
Qed.

End strings.

(** ** Aggregation *)
Section aggregation.

Lemma rfold_ok {A B} (f : A -> B -> Result A) (g : A -> B -> A) :
  (forall a x, f a x = Ok (g a x)) ->
  forall l a, rfold f l a = Ok (fold_left g l a).
Proof.
  intros Hf. induction l as [|x l IH]; intros a; simpl; [done|].
  rewrite Hf. simpl. apply IH.
Qed.

Lemma rfold_total {A B} (f : A -> B -> Result A) :
  (forall a x, exists a', f a x = Ok a') ->
  forall l a, exists a', rfold f l a = Ok a'.
Proof.
  intros Hf. induction l as [|x l IH]; intros a; simpl; [eauto|].
  destruct (Hf a x) as [a' ->]. simpl. apply IH.
Qed.

Lemma unpack2_raise l e : unpack2 l = Raise e -> exn_class e = ValueError.
Proof.
  destruct l as [|x [|y [|z l]]]; simpl; intros [= <-]; reflexivity.
Qed.

(** Line 104 never fails: it runs only when the part holds an equals sign. *)
Lemma add_field_ok d part : exists d', add_field d part = Ok d'.
Proof.
  unfold add_field. destruct (contains "=" part) eqn:E; [|eauto].
  destruct (split1_contains _ _ E) as (x & y & ->). simpl. eauto.
Qed.

Lemma parse_fields_ok data : exists d, parse_fields data = Ok d.
Proof. apply rfold_total, add_field_ok. Qed.

(** The loop body raises nothing: its only exception is caught at line 98. *)
Lemma step_eq a log : step a log = Ok (step_result a log).
Proof.
  unfold step, step_result, accepted.
  destruct (contains "UserID=" log); simpl; [|done].
  destruct (unpack2 _) as [[timestamp data]|e] eqn:E.
  - destruct (parse_fields_ok data) as [d ->]. simpl.
    destruct (d !! "UserID") as [uid|]; [|done].
    by destruct uid.
  - by rewrite (unpack2_raise _ _ E).
Qed.

Lemma aggregate_eq log_lines :
  aggregate log_lines = Ok (fold_left step_result log_lines agg_init).
Proof. apply rfold_ok, step_eq. Qed.

Lemma fold_step_ind (P : Agg -> Prop) :
  (forall a log, P a -> P (step_result a log)) ->
  forall log_lines a, P a -> P (fold_left step_result log_lines a).
Proof.
  intros Hstep. induction log_lines as [|log l IH]; intros a Ha; simpl; auto.
Qed.

(** *** The counter dictionary *)

Lemma incr_keys k d : (incr k d).*1 = see (d.*1) k.
Proof.
  unfold see. induction d as [|[k' n] d IH]; csimpl.
  - destruct (decide (k ∈ [])) as [H|_]; [by apply elem_of_nil in H | done].
  - destruct (decide (k' = k)) as [->|Hne]; csimpl.
    + destruct (decide (k ∈ k :: d.*1)) as [_|H]; [done|].
      exfalso. apply H. left.
    + rewrite IH.
      destruct (decide (k ∈ d.*1)) as [Hin|Hnin];
        destruct (decide (k ∈ k' :: d.*1)) as [Hin'|Hnin'];
        try done.
      * exfalso. apply Hnin'. by right.
      * exfalso. apply elem_of_cons in Hin' as [->|?]; [by apply Hne | by apply Hnin].
Qed.

Lemma incr_sum k d : sum_counts (incr k d) = S (sum_counts d).
Proof.
  unfold sum_counts. induction d as [|[k' n] d IH]; csimpl; [done|].
  destruct (decide (k' = k)); csimpl; [done|]. rewrite IH. lia.
Qed.

Lemma see_elem_of seen x y : y ∈ see seen x <-> y = x \/ y ∈ seen.
Proof.
  unfold see. destruct (decide (x ∈ seen)) as [Hin|Hnin].
  - split; [auto|]. by intros [->|?].
  - rewrite elem_of_app, list_elem_of_singleton. tauto.
Qed.

Lemma see_NoDup seen x : NoDup seen -> NoDup (see seen x).
Proof.
  intros Hnd. unfold see. destruct (decide (x ∈ seen)) as [Hin|Hnin]; [done|].
  apply NoDup_app. split_and!; [done | | apply NoDup_singleton].
  intros y Hy Hy'. apply list_elem_of_singleton in Hy' as ->. by apply Hnin.
Qed.

(** *** What a line does to each accumulator *)

Lemma total_step a log :
  total_interactions (step_result a log)
  = total_interactions a + (if contains "UserID=" log then 1 else 0).
Proof.
  unfold step_result. destruct (contains "UserID=" log); [|simpl; lia].
  destruct (accepted log); simpl; lia.
Qed.

Lemma sum_step a log :
  sum_counts (interactions_per_user (step_result a log))
  = sum_counts (interactions_per_user a)
    + (match accepted log with Some _ => 1 | None => 0 end).
Proof.
  unfold step_result, accepted.
  destruct (contains "UserID=" log); [|simpl; lia].
  destruct (match unpack2 _ with Ok _ => _ | Raise _ => _ end); simpl;
    [rewrite incr_sum|]; lia.
Qed.

Lemma accepted_contains log r : accepted log = Some r -> contains "UserID=" log = true.
Proof. unfold accepted. by destruct (contains "UserID=" log). Qed.

Lemma accepted_user_id log r : accepted log = Some r -> i_user_id r <> "".
Proof.
  unfold accepted. destruct (contains "UserID=" log); [|done].
  destruct (unpack2 _) as [[timestamp data]|]; [|done].
  destruct (parse_fields data) as [d|]; [|done].
  destruct (d !! "UserID") as [[|c uid]|]; simpl; [done| |done].
  by intros [= <-].
Qed.

Lemma list_to_set_see seen x :
  list_to_set (see seen x) =@{gset string} {[x]} ∪ list_to_set seen.
Proof.
  apply set_eq. intros y.
  rewrite elem_of_union, elem_of_singleton, !elem_of_list_to_set.
  apply see_elem_of.
Qed.

Lemma keys_inv_step a log : keys_inv a -> keys_inv (step_result a log).
Proof.
  intros [Hu Hnd]. unfold step_result.
  destruct (contains "UserID=" log); [|done].
  destruct (accepted log) as [r|]; [|done].
  split; simpl; rewrite incr_keys.
  - by rewrite list_to_set_see, Hu.
  - by apply see_NoDup.
Qed.

Lemma names_step a log uid :
  user_names (step_result a log) !! uid
  = match accepted log ≫= name_for uid with
    | Some name => Some name
    | None => user_names a !! uid
    end.
Proof.
  unfold step_result. destruct (accepted log) as [r|] eqn:E; simpl.
  - rewrite (accepted_contains _ _ E). simpl. unfold name_for.
    destruct (i_user_name r) as [[|c name]|]; simpl.
    + by destruct (decide (i_user_id r = uid)).
    + destruct (decide (i_user_id r = uid)) as [->|Hne].
      * apply lookup_insert_eq.
      * by apply lookup_insert_ne.
    + by destruct (decide (i_user_id r = uid)).
  - by destruct (contains "UserID=" log).
Qed.

Lemma names_fold uid log_lines : forall a,
  user_names (fold_left step_result log_lines a) !! uid
  = match last_nonempty_name uid (omap accepted log_lines) with
    | Some name => Some name
    | None => user_names a !! uid
    end.
Proof.
  unfold last_nonempty_name, names_seen.
  induction log_lines as [|log l IH]; intros a; simpl; [done|].
  rewrite IH, names_step.
  destruct (accepted log) as [r|]; simpl; [|done].
  destruct (name_for uid r) as [name|]; simpl; [|done].
  rewrite last_cons. by destruct (last _).
Qed.


Lemma counts_fold log_lines : forall a,
  total_interactions (fold_left step_result log_lines a)
  = total_interactions a
    + length (filter (fun log => contains "UserID=" log = true) log_lines)
  /\ sum_counts (interactions_per_user (fold_left step_result log_lines a))
    = sum_counts (interactions_per_user a) + length (omap accepted log_lines).
Proof.
  induction log_lines as [|log l IH]; intros a; csimpl; [lia|].
  destruct (IH (step_result a log)) as [-> ->].
  rewrite total_step, sum_step, filter_cons.
  destruct (accepted log) as [r|] eqn:E.
  - rewrite (accepted_contains _ _ E). rewrite decide_True by done.
    csimpl. lia.
  - destruct (contains "UserID=" log).
    + rewrite decide_True by done. csimpl. lia.
    + rewrite decide_False by done. csimpl. lia.
Qed.

End aggregation.

(** ** The claims on aggregation *)

(** C2 (the code at the failing input).  A line that holds the marker
    UserID= and has no timestamp separator is not skipped without effect: the
    loop body has already added one to [total_interactions] (line 95) when
    the failed split makes it [continue] (lines 96-99).  The four other
    accumulators are unchanged. *)
Theorem unsplit_line_is_counted :
  contains "UserID=" stray_line = true
  /\ split_max 1 " | " (strip stray_line) = ["UserID=9"]
  /\ forall a, step a stray_line = Ok (count_line a)
      /\ total_interactions (count_line a) = S (total_interactions a)
      /\ unique_users (count_line a) = unique_users a
      /\ interactions_per_user (count_line a) = interactions_per_user a
      /\ user_names (count_line a) = user_names a
      /\ detailed_logs (count_line a) = detailed_logs a.
Proof.
  split; [reflexivity|]. split; [reflexivity|].
  intros a. split; [|done].
  rewrite step_eq. reflexivity.
Qed.

(** C3 (the code at the failing input).  On the two-line log the total is 2
    and the per-user counts sum to 1: the second line holds the marker, is
    counted at line 95 and is dropped at line 99. *)
Theorem total_exceeds_sum_of_counts :
  exists a, aggregate (readlines two_line_log) = Ok a
    /\ total_interactions a = 2
    /\ interactions_per_user a = [("123", 1)]
    /\ sum_counts (interactions_per_user a) = 1.
Proof.
  eexists. split; [apply aggregate_eq|].
  split; [|split]; vm_compute; reflexivity.
Qed.

(** C9.  After aggregation the keys of [interactions_per_user] are exactly
    the members of [unique_users], each key once, so the report has as many
    per-user entries as it counts unique users. *)
Theorem counted_users_are_unique_users (log_lines : list string) :
  exists a, aggregate log_lines = Ok a
    /\ (forall uid, uid ∈ (interactions_per_user a).*1 <-> uid ∈ unique_users a)
    /\ NoDup ((interactions_per_user a).*1)
    /\ length (interactions_per_user a) = size (unique_users a).
Proof.
  eexists. split; [apply aggregate_eq|].
  assert (keys_inv (fold_left step_result log_lines agg_init)) as [Hu Hnd].
  { apply fold_step_ind; [apply keys_inv_step|]. split; [done | constructor]. }
  split; [|split; [done|]].
  - intros uid. by rewrite Hu, elem_of_list_to_set.
  - rewrite Hu, size_list_to_set by done. by rewrite length_fmap.
Qed.

(** C6.  After aggregation [user_names] holds, for every user id, the last
    non-empty user name among the accepted records of that id, in the order
    of the log, and no entry when there is none; an empty or missing name
    overwrites nothing.  On the records (u1, Alice), (u1, empty), (u1, Bob)
    the entry of u1 is Bob. *)
Theorem display_name_is_last_nonempty :
  (forall (log_lines : list string) (uid : string),
     exists a, aggregate log_lines = Ok a
       /\ user_names a !! uid
          = last_nonempty_name uid (omap accepted log_lines))
  /\ (i_user_name <$> omap accepted u1_lines = [Some "Alice"; Some ""; Some "Bob"]
      /\ i_user_id <$> omap accepted u1_lines = ["u1"; "u1"; "u1"]
      /\ exists a, aggregate u1_lines = Ok a /\ user_names a !! "u1" = Some "Bob").
Proof.
  split.
  - intros log_lines uid. eexists. split; [apply aggregate_eq|].
    rewrite names_fold. simpl. rewrite lookup_empty.
    by destruct (last_nonempty_name _ _).
  - split; [vm_compute; reflexivity|]. split; [vm_compute; reflexivity|].
    eexists. split; [apply aggregate_eq|]. vm_compute. reflexivity.
Qed.

(** C10.  A line whose payload has a true UserID and no Username field, or
    no URL field, is accepted all the same: the total and the count of the
    user go up by one, the user joins [unique_users], and the line appended
    to [detailed_logs] has the text None in the place of the missing field. *)
Theorem missing_field_renders_None
    (a : Agg) (log timestamp data uid : string)
    (log_data : gmap string string) :
  contains "UserID=" log = true ->
  split_max 1 " | " (strip log) = [timestamp; data] ->
  parse_fields data = Ok log_data ->
  log_data !! "UserID" = Some uid ->
  uid <> "" ->
  exists a' line,
    step a log = Ok a'
    /\ total_interactions a' = S (total_interactions a)
    /\ uid ∈ unique_users a'
    /\ sum_counts (interactions_per_user a')
       = S (sum_counts (interactions_per_user a))
    /\ detailed_logs a' = detailed_logs a ++ [line]
    /\ (log_data !! "Username" = None ->
        line = timestamp +:+ " | None (" +:+ uid +:+ ") -> "
                 +:+ fmt (log_data !! "URL"))
    /\ (log_data !! "URL" = None ->
        line = timestamp +:+ " | " +:+ fmt (log_data !! "Username")
                 +:+ " (" +:+ uid +:+ ") -> None").
Proof.
  intros Hmark Hsplit Hparse Hid Hne.
  exists (record_user (count_line a) timestamp uid
            (log_data !! "Username") (log_data !! "URL")).
  exists (detail_line timestamp (log_data !! "Username") uid (log_data !! "URL")).
  split.
  { unfold step. rewrite Hmark, Hsplit. simpl. rewrite Hparse. simpl.
    rewrite Hid. destruct uid; [done | reflexivity]. }
  split; [reflexivity|].
  split; [simpl; set_solver|].
  split; [simpl; apply incr_sum|].
  split; [reflexivity|].
  unfold detail_line. split; intros ->; reflexivity.
Qed.

Lemma missing_field_renders_None_witness :
  exists a' line,
    step agg_init bare_line = Ok a'
    /\ total_interactions a' = S (total_interactions agg_init)
    /\ "42" ∈ unique_users a'
    /\ sum_counts (interactions_per_user a')
       = S (sum_counts (interactions_per_user agg_init))
    /\ detailed_logs a' = detailed_logs agg_init ++ [line]
    /\ (({[ "UserID" := "42" ]} : gmap string string) !! "Username" = None ->
        line = "2025-09-04 15:10:00" +:+ " | None (" +:+ "42" +:+ ") -> "
                 +:+ fmt (({[ "UserID" := "42" ]} : gmap string string) !! "URL"))
    /\ (({[ "UserID" := "42" ]} : gmap string string) !! "URL" = None ->
        line = "2025-09-04 15:10:00" +:+ " | "
                 +:+ fmt (({[ "UserID" := "42" ]} : gmap string string) !! "Username")
                 +:+ " (" +:+ "42" +:+ ") -> None").
Proof.
  apply (missing_field_renders_None agg_init bare_line
           "2025-09-04 15:10:00" "UserID=42" "42" {[ "UserID" := "42" ]}).
  - reflexivity.
  - reflexivity.
  - vm_compute. reflexivity.
  - reflexivity.
  - discriminate.
Defined.

(** ** Rendering *)
Section rendering.






End rendering.


(** ** Runs of the pipeline *)
Section runs.

Context (env : Env).

Lemma post_ret {A} (a : A) w Q : Q w (Ok a) -> post (mret a) w Q.
Proof. done. Qed.

Lemma post_bind {A B} (m : M A) (k : A -> M B) w Q :
  post m w (fun w' r => match r with
                        | Ok a => post (k a) w' Q
                        | Raise e => Q w' (Raise e)
                        end) ->
  post (m ≫= k) w Q.
Proof.
  unfold post, mbind, M_bind. destruct (m w) as [w' [a|e]]; simpl; [|done].
  by destruct (k a w').
Qed.

Lemma post_try {A} (body : M A) (handler : Exn -> M A) w Q :
  post body w (fun w' r => match r with
                           | Ok a => Q w' (Ok a)
                           | Raise e => post (handler e) w' Q
                           end) ->
  post (try_except body handler) w Q.
Proof.
  unfold post, try_except. destruct (body w) as [w' [a|e]]; simpl; [done|].
  by destruct (handler e w').
Qed.

Lemma post_lift {A} (r : Result A) w Q : Q w r -> post (lift r) w Q.
Proof. done. Qed.

Lemma post_raise {A} (e : Exn) w (Q : World -> Result A -> Prop) :
  Q w (Raise e) -> post (raise e) w Q.
Proof. done. Qed.

Lemma post_emit ev w Q : Q (record w ev) (Ok tt) -> post (emit ev) w Q.
Proof. done. Qed.

Lemma post_logging level msg w Q :
  Q (record w (EvLog level msg)) (Ok tt) -> post (logging level msg) w Q.
Proof. done. Qed.

Lemma post_strftime_now w Q :
  Q (mkWorld (fs w) (S (ticks w)) (trace w)) (Ok (today env (ticks w))) ->
  post (strftime_now env) w Q.
Proof. done. Qed.

Lemma post_path_exists path w Q :
  Q w (Ok (bool_decide (is_Some (fs w !! path)))) -> post (path_exists path) w Q.
Proof. done. Qed.

Lemma post_read_file path mode w Q :
  (fs w !! path = None ->
   Q (record w (EvOpen path mode)) (Raise (no_such_file path))) ->
  (forall content msg, fs w !! path = Some content ->
     io_fault env (Open path mode) = Some msg ->
     Q (record w (EvOpen path mode)) (Raise (mkExn OSError msg))) ->
  (forall content, fs w !! path = Some content ->
     io_fault env (Open path mode) = None ->
     Q (record w (EvOpen path mode)) (Ok content)) ->
  post (read_file env path mode) w Q.
Proof.
  intros H1 H2 H3. unfold post, read_file, mbind, M_bind, emit, get_fs. simpl.
  destruct (fs w !! path) as [content|] eqn:E; [|by apply H1].
  destruct (io_fault env (Open path mode)) as [msg|] eqn:F; [by eapply H2 | by apply H3].
Qed.

Lemma post_write_file path content w Q :
  (forall msg, io_fault env (Open path ModeW) = Some msg ->
     Q (record w (EvOpen path ModeW)) (Raise (mkExn OSError msg))) ->
  (io_fault env (Open path ModeW) = None ->
     Q (with_fs (record w (EvOpen path ModeW)) (<[path := content]> (fs w))) (Ok tt)) ->
  post (write_file env path content) w Q.
Proof.
  intros H1 H2. unfold post, write_file, mbind, M_bind, emit, get_fs, set_fs. simpl.
  destruct (io_fault env (Open path ModeW)) as [msg|] eqn:F; [by apply H1 | by apply H2].
Qed.

Lemma post_os_remove path w Q :
  (fs w !! path = None ->
   Q (record w (EvRemove path)) (Raise (no_such_file path))) ->
  (forall msg, is_Some (fs w !! path) ->
     io_fault env (Remove path) = Some msg ->
     Q (record w (EvRemove path)) (Raise (mkExn OSError msg))) ->
  (is_Some (fs w !! path) -> io_fault env (Remove path) = None ->
     Q (with_fs (record w (EvRemove path)) (delete path (fs w))) (Ok tt)) ->
  post (os_remove env path) w Q.
Proof.
  intros H1 H2 H3. unfold post, os_remove, mbind, M_bind, emit, get_fs, set_fs. simpl.
  destruct (fs w !! path) as [content|] eqn:E; [|by apply H1].
  destruct (io_fault env (Remove path)) as [msg|] eqn:F; [by eapply H2 | by apply H3].
Qed.

Lemma post_requests_put url filename body w Q :
  Q (record w (EvPut url filename body)) (http_put env url filename body) ->
  post (requests_put env url filename body) w Q.
Proof. done. Qed.

End runs.

(** ** The pipeline *)
Section pipeline.

(** The report file is never the log file, whatever the date. *)
Lemma report_filename_not_log date : "daily_report_" +:+ date +:+ ".md" <> LOG_FILE.
Proof. discriminate. Qed.

Lemma lookup_log_after_report (f : gmap string string) date content :
  <["daily_report_" +:+ date +:+ ".md" := content]> f !! LOG_FILE = f !! LOG_FILE.
Proof. apply lookup_insert_ne, report_filename_not_log. Qed.

Lemma lookup_log_after_remove (f : gmap string string) date :
  delete ("daily_report_" +:+ date +:+ ".md") f !! LOG_FILE = f !! LOG_FILE.
Proof. apply lookup_delete_ne, report_filename_not_log. Qed.

Lemma not_present (f : gmap string string) path :
  negb (bool_decide (is_Some (f !! path))) = true -> f !! path = None.
Proof. destruct (f !! path); [discriminate | done]. Qed.

Lemma present (f : gmap string string) path :
  negb (bool_decide (is_Some (f !! path))) = false -> f !! path <> None.
Proof. intros H E. by rewrite E in H. Qed.

End pipeline.

(** One statement of the program, by the rule of its head. *)
Ltac run_step :=
  lazymatch goal with
  | |- post (mret _) _ _ => apply post_ret
  | |- post (mbind _ _) _ _ => apply post_bind
  | |- post (try_except _ _) _ _ => apply post_try
  | |- post (lift (aggregate _)) _ _ => rewrite aggregate_eq; apply post_lift
  | |- post (lift _) _ _ => apply post_lift
  | |- post (logging _ _) _ _ => apply post_logging
  | |- post (strftime_now _) _ _ => apply post_strftime_now
  | |- post (path_exists _) _ _ => apply post_path_exists
  | |- post (read_file _ _ _) _ _ => apply post_read_file; intros
  | |- post (write_file _ _ _) _ _ => apply post_write_file; intros
  | |- post (os_remove _ _) _ _ => apply post_os_remove; intros
  | |- post (requests_put _ _ _ _) _ _ => apply post_requests_put
  | |- post (get_report_title _) _ _ => unfold get_report_title
  | |- post (report_body _) _ _ => unfold report_body
  | |- post (send_daily_report _) _ _ => unfold send_daily_report
  | |- post (if ?b then _ else _) _ _ => destruct b eqn:?
  | |- post (match ?x with _ => _ end) _ _ => destruct x eqn:?
  | |- match ?x with _ => _ end => destruct x eqn:?
  end; cbn [fs ticks trace record with_fs] in *.

(** Every path through the program, one goal per way it can end. *)
Ltac run := repeat run_step.

(** The cases of a position in a list that is written out. *)
Ltac at_index H :=
  repeat lazymatch type of H with
  | (_ :: _) !! ?i = Some _ =>
      let j := fresh "i" in destruct i as [|j]; cbn [lookup list_lookup] in H
  end.

(** C1.  Whatever the environment does, the log file is written only after a
    response of status 200: in a run where no request got such a response
    (the status was another one, the request raised, or none was sent) the
    content of the log file at the end is the content at the start; the log
    file is opened for writing only two events after a request that got a
    200, with the record of the success in between; and a request that got
    a 200 is always followed by that record and by the opening of the log
    file for writing, which leaves it empty unless the opening fails. *)
Theorem truncation_follows_delivery (env : Env) (w : World) :
  exists new,
    trace (send_daily_report env w).1 = trace w ++ new
    /\ ((forall url filename body response,
           EvPut url filename body ∈ new ->
           http_put env url filename body = Ok response ->
           status_code response <> 200%Z) ->
        fs (send_daily_report env w).1 !! LOG_FILE = fs w !! LOG_FILE)
    /\ (forall i, new !! i = Some (EvOpen LOG_FILE ModeW) ->
        exists j url filename body response,
          i = S (S j)
          /\ new !! j = Some (EvPut url filename body)
          /\ http_put env url filename body = Ok response
          /\ status_code response = 200%Z
          /\ new !! S j = Some (EvLog INFO sent_message))
    /\ (forall j url filename body response,
          new !! j = Some (EvPut url filename body) ->
          http_put env url filename body = Ok response ->
          status_code response = 200%Z ->
          new !! S j = Some (EvLog INFO sent_message)
          /\ new !! S (S j) = Some (EvOpen LOG_FILE ModeW)
          /\ (io_fault env (Open LOG_FILE ModeW) = None ->
              fs (send_daily_report env w).1 !! LOG_FILE = Some "")).
Proof.
  change (post (send_daily_report env) w (fun w' r =>
    exists new,
    trace w' = trace w ++ new
    /\ ((forall url filename body response,
           EvPut url filename body ∈ new ->
           http_put env url filename body = Ok response ->
           status_code response <> 200%Z) ->
        fs w' !! LOG_FILE = fs w !! LOG_FILE)
    /\ (forall i, new !! i = Some (EvOpen LOG_FILE ModeW) ->
        exists j url filename body response,
          i = S (S j)
          /\ new !! j = Some (EvPut url filename body)
          /\ http_put env url filename body = Ok response
          /\ status_code response = 200%Z
          /\ new !! S j = Some (EvLog INFO sent_message))
    /\ (forall j url filename body response,
          new !! j = Some (EvPut url filename body) ->
          http_put env url filename body = Ok response ->
          status_code response = 200%Z ->
          new !! S j = Some (EvLog INFO sent_message)
          /\ new !! S (S j) = Some (EvOpen LOG_FILE ModeW)
          /\ (io_fault env (Open LOG_FILE ModeW) = None ->
              fs w' !! LOG_FILE = Some "")))).
  destruct w as [f t tr]. cbn [fs ticks trace] in *.
  run.
  all: eexists; split; [rewrite <- ?app_assoc; reflexivity|]; cbn [app].
  all: try apply bool_decide_eq_true in Heqb0.
  all: try apply bool_decide_eq_false in Heqb0.
  all: split; [intros Hput|split; [intros i Hi|intros j url filename body' response' Hj Hresp Hstatus]].
  all: rewrite ?lookup_log_after_remove, ?lookup_log_after_report.
  all: try reflexivity.
  all: try (exfalso; eapply Hput;
            [ repeat first [apply list_elem_of_here | apply list_elem_of_further]
            | eassumption | assumption ]).
  all: try (at_index Hi; try discriminate Hi;
            try (injection Hi as Hi; by apply report_filename_not_log in Hi);
            eexists _, _, _, _, _; split_and!; (reflexivity || eassumption)).
  all: at_index Hj; try discriminate Hj.
  all: injection Hj as <- <- <-.
  all: try congruence.
  all: split_and!; try reflexivity.
  all: intros Hok; first [congruence | apply lookup_insert_eq].
Qed.

(** C4 (as stated, refuted).  On a log whose only line has no marker the
    total is 0, and with a service that answers 200 the run sends the empty
    report, ends as a delivery and empties the log. *)
Lemma empty_report_is_sent :
  fs (world_with_log garbage_log) !! LOG_FILE = Some garbage_log
  /\ readlines garbage_log = [garbage_log]
  /\ (exists a, aggregate (readlines garbage_log) = Ok a
                /\ total_interactions a = 0)
  /\ (send_daily_report (env_status 200) (world_with_log garbage_log)).2
     = Ok (Finished (mkResponse 200 "ok"))
  /\ outcome (Finished (mkResponse 200 "ok")) = Delivered
  /\ trace (send_daily_report (env_status 200) (world_with_log garbage_log)).1 !! 3
     = Some (EvPut ntfy_url "Telegram Bot Report - 2025-09-04"
                   (render agg_init "2025-09-04"))
  /\ fs (send_daily_report (env_status 200) (world_with_log garbage_log)).1
       !! LOG_FILE = Some "".
Proof.
  split; [reflexivity|]. split; [reflexivity|].
  split; [exists agg_init; split; reflexivity|].
  split; [vm_compute; reflexivity|]. split; [reflexivity|].
  split; vm_compute; reflexivity.
Qed.

(** C4 (amended).  A run on a log file that has lines never ends as a skip,
    whatever [total_interactions] is; when reading the log and writing and
    reopening the report file do not fail, it sends one request, the fourth
    event of the run, whose body is the rendered report. *)
Theorem reports_whatever_the_total (env : Env) (w : World) (content : string) :
  fs w !! LOG_FILE = Some content ->
  readlines content <> [] ->
  (exists x, (send_daily_report env w).2 = Ok x /\ outcome x <> Skipped)
  /\ (io_fault env (Open LOG_FILE ModeR) = None ->
      io_fault env (Open (report_filename_at env (ticks w)) ModeW) = None ->
      io_fault env (Open (report_filename_at env (ticks w)) ModeRB) = None ->
      exists a new,
        aggregate (readlines content) = Ok a
        /\ trace (send_daily_report env w).1 = trace w ++ new
        /\ new !! 3 = Some (EvPut ntfy_url (report_title_at env (ticks w))
                                  (render a (today env (ticks w))))
        /\ forall j url filename body,
             new !! j = Some (EvPut url filename body) -> j = 3).
Proof.
  intros Hlog Hlines.
  change (post (send_daily_report env) w (fun w' r =>
    (exists x, r = Ok x /\ outcome x <> Skipped)
    /\ (io_fault env (Open LOG_FILE ModeR) = None ->
        io_fault env (Open (report_filename_at env (ticks w)) ModeW) = None ->
        io_fault env (Open (report_filename_at env (ticks w)) ModeRB) = None ->
        exists a new,
          aggregate (readlines content) = Ok a
          /\ trace w' = trace w ++ new
          /\ new !! 3 = Some (EvPut ntfy_url (report_title_at env (ticks w))
                                    (render a (today env (ticks w))))
          /\ forall j url filename body,
               new !! j = Some (EvPut url filename body) -> j = 3))).
  unfold report_filename_at, report_title_at, ntfy_url.
  destruct w as [f t tr]. cbn [fs ticks trace] in *.
  run.
  all: try (apply not_present in Heqb; congruence).
  all: try congruence.
  all: try rewrite lookup_insert_eq in *.
  all: simplify_eq.
  all: split; [eexists; split; [reflexivity|]; simpl; try done;
               try (case_bool_decide; done) | intros Hr Hw Hrb].
  all: try congruence.
  all: eexists _, _; split; [rewrite Heql; apply aggregate_eq|].
  all: split; [rewrite <- ?app_assoc; reflexivity|]; cbn [app].
  all: split; [reflexivity|].
  all: intros j url filename body Hj; at_index Hj; try discriminate Hj.
  all: reflexivity.
Qed.

Lemma reports_whatever_the_total_witness :
  (exists x, (send_daily_report (env_status 200) (world_with_log garbage_log)).2 = Ok x
             /\ outcome x <> Skipped)
  /\ (io_fault (env_status 200) (Open LOG_FILE ModeR) = None ->
      io_fault (env_status 200)
        (Open (report_filename_at (env_status 200) (ticks (world_with_log garbage_log))) ModeW) = None ->
      io_fault (env_status 200)
        (Open (report_filename_at (env_status 200) (ticks (world_with_log garbage_log))) ModeRB) = None ->
      exists a new,
        aggregate (readlines garbage_log) = Ok a
        /\ trace (send_daily_report (env_status 200) (world_with_log garbage_log)).1
           = trace (world_with_log garbage_log) ++ new
        /\ new !! 3 = Some (EvPut ntfy_url
                             (report_title_at (env_status 200) (ticks (world_with_log garbage_log)))
                             (render a (today (env_status 200) (ticks (world_with_log garbage_log)))))
        /\ forall j url filename body,
             new !! j = Some (EvPut url filename body) -> j = 3).
Proof.
  apply (reports_whatever_the_total (env_status 200) (world_with_log garbage_log)
           garbage_log).
  - reflexivity.
  - discriminate.
Defined.



(** C8.  A call of [send_daily_report] always returns: an exception raised
    in the body is caught by the [except] clause, which logs it at error
    level and ends the call; nothing reaches the caller. *)
Theorem never_propagates (env : Env) (w : World) :
  exists w' x,
    send_daily_report env w = (w', Ok x)
    /\ (forall w1 e, report_body env w = (w1, Raise e) ->
          x = Caught e
          /\ w' = record w1 (EvLog ERROR ("Error while sending daily report: "
                                           +:+ exn_msg e)))
    /\ (forall w1 x1, report_body env w = (w1, Ok x1) -> x = x1 /\ w' = w1).
Proof.
  unfold send_daily_report, try_except.
  destruct (report_body env w) as [w1 [x1|e]].
  - exists w1, x1. split; [done|]. split; [done|]. by intros ? ? [= <- <-].
  - eexists _, (Caught e). split; [reflexivity|].
    split; [|done]. by intros ? ? [= <- <-].
Qed.

(** ** Further properties *)

(** X1.  A line without the marker UserID= leaves the five accumulators as
    they are. *)
Theorem unmarked_line_changes_nothing (a : Agg) (log : string) :
  contains "UserID=" log = false -> step a log = Ok a.
Proof. intros H. unfold step. by rewrite H. Qed.

Lemma unmarked_line_changes_nothing_witness :
  step agg_init garbage_log = Ok agg_init.
Proof.
  apply (unmarked_line_changes_nothing agg_init garbage_log). reflexivity.
Defined.

(** X2.  After aggregation [total_interactions] is the number of lines that
    hold the marker, and the per-user counts sum to the number of accepted
    lines, which is at most the total. *)
Theorem totals_of_aggregation (log_lines : list string) :
  exists a, aggregate log_lines = Ok a
    /\ total_interactions a
       = length (filter (fun log => contains "UserID=" log = true) log_lines)
    /\ sum_counts (interactions_per_user a) = length (omap accepted log_lines)
    /\ sum_counts (interactions_per_user a) <= total_interactions a.
Proof.
  eexists. split; [apply aggregate_eq|].
  destruct (counts_fold log_lines agg_init) as [Ht Hs].
  rewrite Ht, Hs. cbn [total_interactions interactions_per_user agg_init].
  split; [done|]. split; [done|]. unfold sum_counts. csimpl.
  clear Ht Hs.
  induction log_lines as [|log l IH]; csimpl; [lia|].
  rewrite filter_cons. destruct (accepted log) as [r|] eqn:E.
  - rewrite decide_True by (by eapply accepted_contains). csimpl. lia.
  - destruct (decide _); csimpl; lia.
Qed.

(** The second and third scenarios of section 8 of the specification:
    on a log of one well-formed line the report counts one interaction and
    one user; after a response of status 200 the log file is empty and the
    run is a delivery; after a response of status 500 the log file still
    holds the line and the run is a failed delivery. *)
Theorem one_line_scenarios :
  (exists a, aggregate (readlines bob_line) = Ok a
     /\ total_interactions a = 1
     /\ elements (unique_users a) = ["42"])
  /\ fs (send_daily_report (env_status 200) (world_with_log bob_line)).1
       !! LOG_FILE = Some ""
  /\ (send_daily_report (env_status 200) (world_with_log bob_line)).2
     = Ok (Finished (mkResponse 200 "ok"))
  /\ outcome (Finished (mkResponse 200 "ok")) = Delivered
  /\ fs (send_daily_report (env_status 500) (world_with_log bob_line)).1
       !! LOG_FILE = Some bob_line
  /\ (send_daily_report (env_status 500) (world_with_log bob_line)).2
     = Ok (Finished (mkResponse 500 "ok"))
  /\ outcome (Finished (mkResponse 500 "ok")) = DeliveryFailed.
Proof.
  split.
  { eexists. split; [apply aggregate_eq|]. split; vm_compute; reflexivity. }
  repeat split; vm_compute; reflexivity.
Qed.

(** * The message handler: main.py, lines 16-19 and 50-69 *)

(** ** Regular expressions, as a backtracking matcher runs them

    A pattern maps a text to the remainders left by each way of matching a
    prefix of it, in the order the matcher tries them. *)
Module Re.

Definition rx : Type := string -> list string.

(** A literal text. *)
Definition lit (l : string) : rx :=
  fun s => match drop_prefix l s with Some r => [r] | None => [] end.

(** [pq] *)
Definition seq (p q : rx) : rx := fun s => r ← p s; q r.

(** [p|q] *)
Definition alt (p q : rx) : rx := fun s => p s ++ q s.

(** [p?], greedy. *)
Definition opt (p : rx) : rx := fun s => p s ++ [s].

(** [[...]+] for a class of characters, greedy. *)
Fixpoint plus (cls : ascii -> bool) (s : string) : list string :=
  match s with
  | EmptyString => []
  | String c s' => if cls c then plus cls s' ++ [s'] else []
  end.

(** The truth value of [re.match(p, s)]: whether some prefix matches. *)
Definition re_match (p : rx) (s : string) : bool :=
  match p s with [] => false | _ :: _ => true end.

End Re.

Definition in_range (lo hi c : ascii) : bool :=
  ((N_of_ascii lo <=? N_of_ascii c) && (N_of_ascii c <=? N_of_ascii hi))%N.

(** The class [[a-zA-Z0-9\-\_]] of line 19. *)
Definition id_char (c : ascii) : bool :=
  in_range "a" "z" c || in_range "A" "Z" c || in_range "0" "9" c
  || Ascii.eqb c "-" || Ascii.eqb c "_".

(** Line 19. *)
Definition INSTAGRAM_REEL_REGEX : Re.rx :=
  Re.seq (Re.lit "http") (Re.seq (Re.opt (Re.lit "s")) (Re.seq (Re.lit "://")
  (Re.seq (Re.opt (Re.lit "www.")) (Re.seq (Re.lit "instagram.com/")
  (Re.seq (Re.alt (Re.seq (Re.lit "reel") (Re.opt (Re.lit "s"))) (Re.lit "p"))
  (Re.seq (Re.lit "/") (Re.plus id_char))))))).






(** ** The link pattern *)
Section patterns.

Lemma drop_prefix_spec p s r : drop_prefix p s = Some r <-> s = p +:+ r.
Proof.
  revert s. induction p as [|a p IH]; intros s.
  - simpl. split; [by intros [= ->] | by intros ->].
  - destruct s as [|b s].
    + simpl. split; [done|]. intros H. discriminate H.
    + cbn [drop_prefix]. destruct (Ascii.eqb_spec a b) as [->|Hne].
      * rewrite IH. change (String b p +:+ r) with (String b (p +:+ r)).
        split; [by intros -> | by intros [= ->]].
      * split; [done|]. change (String a p +:+ r) with (String a (p +:+ r)).
        intros [= -> _]. by destruct Hne.
Qed.

Lemma lit_spec l s r : r ∈ Re.lit l s <-> s = l +:+ r.
Proof.
  unfold Re.lit. destruct (drop_prefix l s) as [r'|] eqn:E.
  - apply drop_prefix_spec in E as ->. rewrite list_elem_of_singleton.
    split; [by intros -> | by intros ?%(inj _)].
  - rewrite elem_of_nil. split; [done|]. intros H%drop_prefix_spec. congruence.
Qed.

Lemma seq_spec (p q : Re.rx) s r :
  r ∈ Re.seq p q s <-> exists m, m ∈ p s /\ r ∈ q m.
Proof.
  unfold Re.seq. rewrite list_elem_of_bind.
  split; intros (m & ? & ?); eauto.
Qed.

Lemma alt_spec (p q : Re.rx) s r : r ∈ Re.alt p q s <-> r ∈ p s \/ r ∈ q s.
Proof. unfold Re.alt. apply elem_of_app. Qed.

Lemma opt_spec (p : Re.rx) s r : r ∈ Re.opt p s <-> r ∈ p s \/ r = s.
Proof. unfold Re.opt. by rewrite elem_of_app, list_elem_of_singleton. Qed.

Lemma plus_spec cls s :
  (exists r, r ∈ Re.plus cls s) <-> exists c rest, s = String c rest /\ cls c = true.
Proof.
  destruct s as [|c s]; simpl.
  - split; [intros [r H]; by apply elem_of_nil in H | by intros (? & ? & ? & ?)].
  - destruct (cls c) eqn:E.
    + split; [eauto|]. intros _. exists s. apply elem_of_app. right. left.
    + split; [intros [r H]; by apply elem_of_nil in H|].
      intros (? & ? & [= <- <-] & ?). congruence.
Qed.

Lemma re_match_spec (p : Re.rx) s : Re.re_match p s = true <-> exists r, r ∈ p s.
Proof.
  unfold Re.re_match. destruct (p s) as [|r l].
  - split; [done|]. intros [r H]. by apply elem_of_nil in H.
  - split; [|done]. intros _. exists r. left.
Qed.

End patterns.

Ltac disjunct :=
  first [ reflexivity | left; reflexivity | right; disjunct ].

Ltac link_form scheme www kind c rest :=
  exists scheme, www, kind, c, rest;
  split; [disjunct|]; split; [disjunct|]; split; [disjunct|];
  split; [assumption | reflexivity].

Ltac re_walk :=
  lazymatch goal with
  | |- _ ∈ Re.seq _ _ _ => apply seq_spec; eexists; split; [re_walk | re_walk]
  | |- _ ∈ Re.lit _ _ => apply lit_spec; reflexivity
  | |- _ ∈ Re.opt _ _ => apply opt_spec; first [left; re_walk | right; reflexivity]
  | |- _ ∈ Re.alt _ _ _ => apply alt_spec; first [left; re_walk | right; re_walk]
  | |- _ ∈ Re.plus _ _ => eassumption
  end.

(** X3.  [re.match] with the pattern of line 19 accepts a text exactly when
    it starts with http or https, the scheme separator, an optional www.,
    instagram.com/, one of reel, reels and p, a slash and one character of
    the class of letters, digits, hyphen and underscore; what follows that
    character is not looked at. *)
Theorem reel_link_form (s : string) :
  Re.re_match INSTAGRAM_REEL_REGEX s = true <->
  exists scheme www kind c rest,
    (scheme = "http" \/ scheme = "https")
    /\ (www = "" \/ www = "www.")
    /\ (kind = "reel" \/ kind = "reels" \/ kind = "p")
    /\ id_char c = true
    /\ s = scheme +:+ "://" +:+ www +:+ "instagram.com/" +:+ kind +:+ "/"
             +:+ String c rest.
Proof.
  rewrite re_match_spec. unfold INSTAGRAM_REEL_REGEX. split.
  - intros [r Hr].
    apply seq_spec in Hr as (m1 & ->%lit_spec & Hr).
    apply seq_spec in Hr as (m2 & Hs & Hr).
    apply seq_spec in Hr as (m3 & ->%lit_spec & Hr).
    apply seq_spec in Hr as (m4 & Hw & Hr).
    apply seq_spec in Hr as (m5 & ->%lit_spec & Hr).
    apply seq_spec in Hr as (m6 & Hk & Hr).
    apply seq_spec in Hr as (m7 & ->%lit_spec & Hr).
    assert (exists c rest, m7 = String c rest /\ id_char c = true)
      as (c & rest & -> & Hc) by (apply plus_spec; eauto).
    apply opt_spec in Hs as [->%lit_spec| <-];
      apply opt_spec in Hw as [->%lit_spec| <-];
      (apply alt_spec in Hk as [Hk| ->%lit_spec];
       [apply seq_spec in Hk as (m8 & ->%lit_spec & Hk);
        apply opt_spec in Hk as [->%lit_spec| <-]|]).
    + link_form "https" "www." "reels" c rest.
    + link_form "https" "www." "reel" c rest.
    + link_form "https" "www." "p" c rest.
    + link_form "https" "" "reels" c rest.
    + link_form "https" "" "reel" c rest.
    + link_form "https" "" "p" c rest.
    + link_form "http" "www." "reels" c rest.
    + link_form "http" "www." "reel" c rest.
    + link_form "http" "www." "p" c rest.
    + link_form "http" "" "reels" c rest.
    + link_form "http" "" "reel" c rest.
    + link_form "http" "" "p" c rest.
  - intros (scheme & www & kind & c & rest & Hs & Hw & Hk & Hc & ->).
    assert (exists r, r ∈ Re.plus id_char (String c rest)) as [r Hr]
      by (apply plus_spec; eauto).
    exists r.
    destruct Hs as [-> | ->]; destruct Hw as [-> | ->];
      destruct Hk as [-> | [-> | ->]]; re_walk.
Qed.

(** ** The format of a log record *)





Section log_format.



(** *** The decimal text of an integer *)






(** *** Stripping *)

Lemma lstrip_idem s : lstrip (lstrip s) = lstrip s.
Proof.
  induction s as [|c s IH]; [done|]. simpl.
  destruct (is_space c) eqn:E; [done|]. simpl. by rewrite E.
Qed.






Lemma lstrip_strip s : lstrip (strip s) = strip s.
Proof. unfold strip. apply lstrip_idem. Qed.




(** *** Cutting at a separator *)









End log_format.










Section forged_fields.








End forged_fields.


(** ** More on the runs of the pipeline *)

(** X6.  A run reads and writes two files only, the log file and the report
    file of the day: every other file is at the end what it was at the
    start, whatever the environment does. *)
Theorem other_files_untouched (env : Env) (w : World) (path : string) :
  path <> LOG_FILE ->
  path <> report_filename_at env (ticks w) ->
  fs (send_daily_report env w).1 !! path = fs w !! path.
Proof.
  intros Hlog Hrep.
  change (post (send_daily_report env) w (fun w' _ => fs w' !! path = fs w !! path)).
  unfold report_filename_at in Hrep.
  destruct w as [f t tr]. cbn [fs ticks trace] in *.
  run.
  all: rewrite ?lookup_delete_ne, ?lookup_insert_ne by done; reflexivity.
Qed.

Lemma other_files_untouched_witness :
  fs (send_daily_report (env_status 200)
        (mkWorld {[LOG_FILE := bob_line; "notes.txt" := "keep"]} 0 [])).1
    !! "notes.txt"
  = fs (mkWorld {[LOG_FILE := bob_line; "notes.txt" := "keep"]} 0 []) !! "notes.txt".
Proof.
  apply (other_files_untouched (env_status 200)
           (mkWorld {[LOG_FILE := bob_line; "notes.txt" := "keep"]} 0 []) "notes.txt");
    discriminate.
Defined.

(** X7.  A run sends at most one request: there is no retry, whatever the
    answer of the service. *)
Theorem at_most_one_request (env : Env) (w : World) :
  exists new,
    trace (send_daily_report env w).1 = trace w ++ new
    /\ forall i j url filename body url' filename' body',
         new !! i = Some (EvPut url filename body) ->
         new !! j = Some (EvPut url' filename' body') ->
         i = j.
Proof.
  change (post (send_daily_report env) w (fun w' _ =>
    exists new,
      trace w' = trace w ++ new
      /\ forall i j url filename body url' filename' body',
           new !! i = Some (EvPut url filename body) ->
           new !! j = Some (EvPut url' filename' body') ->
           i = j)).
  destruct w as [f t tr]. cbn [fs ticks trace] in *.
  run.
  all: eexists; split; [rewrite <- ?app_assoc; reflexivity|]; cbn [app].
  all: intros i j url filename body url' filename' body' Hi Hj.
  all: at_index Hi; try discriminate Hi.
  all: at_index Hj; try discriminate Hj.
  all: reflexivity.
Qed.

(** X8.  A run that reaches the end of the [try] body has removed the report
    file: no report file of the day is left, also when one was there before
    the run. *)
Theorem report_file_is_removed (env : Env) (w : World) (response : Response) :
  (send_daily_report env w).2 = Ok (Finished response) ->
  fs (send_daily_report env w).1 !! report_filename_at env (ticks w) = None.
Proof.
  change (post (send_daily_report env) w (fun w' r =>
    r = Ok (Finished response) ->
    fs w' !! report_filename_at env (ticks w) = None)).
  unfold report_filename_at.
  destruct w as [f t tr]. cbn [fs ticks trace] in *.
  run.
  all: intros [= <-] || intros [=].
  all: apply lookup_delete_eq.
Qed.

Lemma report_file_is_removed_witness :
  fs (send_daily_report (env_status 500) (world_with_log bob_line)).1
    !! report_filename_at (env_status 500) (ticks (world_with_log bob_line))
  = None.
Proof.
  apply (report_file_is_removed (env_status 500) (world_with_log bob_line)
           (mkResponse 500 "ok")).
  vm_compute. reflexivity.
Defined.

(** X9.  The report file is removed at the end of the [try] body only (line
    153): when the request raises, the run ends in the [except] clause and
    leaves the report file of the day on disk, holding the report, next to
    the untouched log. *)
Theorem report_file_is_left_when_request_raises
    (env : Env) (w : World) (content : string) (e : Exn) :
  fs w !! LOG_FILE = Some content ->
  readlines content <> [] ->
  io_fault env (Open LOG_FILE ModeR) = None ->
  io_fault env (Open (report_filename_at env (ticks w)) ModeW) = None ->
  io_fault env (Open (report_filename_at env (ticks w)) ModeRB) = None ->
  (forall url filename body, http_put env url filename body = Raise e) ->
  exists a,
    aggregate (readlines content) = Ok a
    /\ (send_daily_report env w).2 = Ok (Caught e)
    /\ fs (send_daily_report env w).1 !! report_filename_at env (ticks w)
       = Some (render a (today env (ticks w)))
    /\ fs (send_daily_report env w).1 !! LOG_FILE = Some content.
Proof.
  intros Hlog Hlines Hr Hw Hrb Hput.
  change (post (send_daily_report env) w (fun w' r =>
    exists a,
      aggregate (readlines content) = Ok a
      /\ r = Ok (Caught e)
      /\ fs w' !! report_filename_at env (ticks w)
         = Some (render a (today env (ticks w)))
      /\ fs w' !! LOG_FILE = Some content)).
  unfold report_filename_at in *.
  destruct w as [f t tr]. cbn [fs ticks trace] in *.
  run.
  all: try (apply not_present in Heqb; congruence).
  all: try congruence.
  all: try rewrite lookup_insert_eq in *.
  all: simplify_eq.
  all: try (rewrite Hput in *; simplify_eq).
  all: try congruence.
  eexists. split; [rewrite Heql; apply aggregate_eq|].
  split; [reflexivity|]. split; [reflexivity|].
  by rewrite lookup_log_after_report.
Qed.

Definition env_unreachable : Env :=
  mkEnv (fun _ => "2025-09-04") (fun _ => None)
        (fun _ _ _ => Raise (mkExn RequestException "connection refused")).

Lemma report_file_is_left_when_request_raises_witness :
  exists a,
    aggregate (readlines bob_line) = Ok a
    /\ (send_daily_report env_unreachable (world_with_log bob_line)).2
       = Ok (Caught (mkExn RequestException "connection refused"))
    /\ fs (send_daily_report env_unreachable (world_with_log bob_line)).1
         !! report_filename_at env_unreachable (ticks (world_with_log bob_line))
       = Some (render a (today env_unreachable (ticks (world_with_log bob_line))))
    /\ fs (send_daily_report env_unreachable (world_with_log bob_line)).1
         !! LOG_FILE = Some bob_line.
Proof.
  apply (report_file_is_left_when_request_raises env_unreachable
           (world_with_log bob_line) bob_line
           (mkExn RequestException "connection refused"));
    first [reflexivity | discriminate].
Defined.

(** X10.  After a run that delivered the report (response 200, end of the
    [try] body reached) the log file is empty, and the next run, in any
    environment that lets it read the log, takes the early return of line
    83: it sends no request and changes no file, so nothing is reported
    twice. *)
Theorem no_second_report_after_delivery
    (env env' : Env) (w : World) (response : Response) :
  (send_daily_report env w).2 = Ok (Finished response) ->
  status_code response = 200%Z ->
  io_fault env' (Open LOG_FILE ModeR) = None ->
  fs (send_daily_report env w).1 !! LOG_FILE = Some ""
  /\ (send_daily_report env' (send_daily_report env w).1).2 = Ok NoLogLines
  /\ fs (send_daily_report env' (send_daily_report env w).1).1
     = fs (send_daily_report env w).1
  /\ exists new,
       trace (send_daily_report env' (send_daily_report env w).1).1
       = trace (send_daily_report env w).1 ++ new
       /\ forall url filename body, EvPut url filename body ∉ new.
Proof.
  intros Hfin Hstatus Hread.
  assert (fs (send_daily_report env w).1 !! LOG_FILE = Some "") as Hempty.
  { revert Hfin.
    change (post (send_daily_report env) w (fun w' r =>
      r = Ok (Finished response) -> fs w' !! LOG_FILE = Some "")).
    destruct w as [f t tr]. cbn [fs ticks trace] in *.
    run.
    all: intros [= <-] || intros [=].
    all: rewrite ?lookup_log_after_remove.
    all: try apply lookup_insert_eq.
    all: apply bool_decide_eq_false in Heqb0; congruence. }
  split; [done|].
  generalize dependent (send_daily_report env w).1. intros w1 Hempty.
  change (post (send_daily_report env') w1 (fun w' r =>
    r = Ok NoLogLines /\ fs w' = fs w1
    /\ exists new, trace w' = trace w1 ++ new
         /\ forall url filename body, EvPut url filename body ∉ new)).
  destruct w1 as [f t tr]. cbn [fs ticks trace] in *.
  run.
  all: try (apply not_present in Heqb; congruence).
  all: try congruence.
  all: simplify_eq.
  all: try discriminate.
  split; [done|]. split; [done|].
  eexists; split; [rewrite <- ?app_assoc; reflexivity|].
  intros url filename body Hin; cbn [app] in Hin.
  repeat (apply elem_of_cons in Hin as [Hin|Hin]; [discriminate Hin|]).
  by apply elem_of_nil in Hin.
Qed.

Lemma no_second_report_after_delivery_witness :
  fs (send_daily_report (env_status 200) (world_with_log bob_line)).1 !! LOG_FILE
  = Some ""
  /\ (send_daily_report (env_status 500)
        (send_daily_report (env_status 200) (world_with_log bob_line)).1).2
     = Ok NoLogLines
  /\ fs (send_daily_report (env_status 500)
           (send_daily_report (env_status 200) (world_with_log bob_line)).1).1
     = fs (send_daily_report (env_status 200) (world_with_log bob_line)).1
  /\ exists new,
       trace (send_daily_report (env_status 500)
                (send_daily_report (env_status 200) (world_with_log bob_line)).1).1
       = trace (send_daily_report (env_status 200) (world_with_log bob_line)).1 ++ new
       /\ forall url filename body, EvPut url filename body ∉ new.
Proof.
  apply (no_second_report_after_delivery (env_status 200) (env_status 500)
           (world_with_log bob_line) (mkResponse 200 "ok")).
  - vm_compute. reflexivity.
  - reflexivity.
  - reflexivity.
Defined.

(** ** More on aggregation *)

(** The count a dictionary of counters holds for a key, 0 without entry. *)
Fixpoint count_of (k : string) (d : list (string * nat)) : nat :=
  match d with
  | [] => 0
  | (k', n) :: d' => if decide (k' = k) then n else count_of k d'
  end.

Section counts.

Lemma count_of_incr k k' d :
  count_of k' (incr k d) = count_of k' d + (if decide (k = k') then 1 else 0).
Proof.
  induction d as [|[k0 n] d IH]; simpl.
  - repeat case_decide; lia.
  - destruct (decide (k0 = k)) as [->|Hne]; simpl.
    + repeat case_decide; lia.
    + destruct (decide (k0 = k')) as [->|Hne']; [|done].
      rewrite decide_False by done. lia.
Qed.

Lemma count_of_elem k n d : NoDup (d.*1) -> (k, n) ∈ d -> count_of k d = n.
Proof.
  induction d as [|[k0 n0] d IH]; csimpl; intros Hnd Hin.
  - by apply elem_of_nil in Hin.
  - apply NoDup_cons in Hnd as [Hk0 Hnd].
    apply elem_of_cons in Hin as [[= <- <-]|Hin].
    + by rewrite decide_True.
    + rewrite decide_False; [by apply IH|].
      intros ->. apply Hk0. apply list_elem_of_fmap. by exists (k, n).
Qed.

Lemma count_of_fold uid log_lines : forall a,
  count_of uid (interactions_per_user (fold_left step_result log_lines a))
  = count_of uid (interactions_per_user a)
    + length (filter (fun r => i_user_id r = uid) (omap accepted log_lines)).
Proof.
  induction log_lines as [|log l IH]; intros a; csimpl; [lia|].
  rewrite IH. unfold step_result at 1.
  destruct (accepted log) as [r|] eqn:E; csimpl.
  - rewrite (accepted_contains _ _ E). cbn [interactions_per_user record_user count_line].
    rewrite count_of_incr, filter_cons. case_decide; csimpl; lia.
  - destruct (contains "UserID=" log); csimpl; lia.
Qed.

End counts.

(** X11.  Every entry of [interactions_per_user] after aggregation is the
    number of accepted records of its user: the count the report prints for
    a user is the number of accepted lines that carry the id of that user. *)
Theorem user_count_is_number_of_records (log_lines : list string) :
  exists a, aggregate log_lines = Ok a
    /\ (forall uid,
          count_of uid (interactions_per_user a)
          = length (filter (fun r => i_user_id r = uid) (omap accepted log_lines)))
    /\ (forall uid n,
          (uid, n) ∈ interactions_per_user a ->
          n = length (filter (fun r => i_user_id r = uid) (omap accepted log_lines))
          /\ 0 < n).
Proof.
  eexists. split; [apply aggregate_eq|].
  assert (forall uid,
    count_of uid (interactions_per_user (fold_left step_result log_lines agg_init))
    = length (filter (fun r => i_user_id r = uid) (omap accepted log_lines))) as Hc.
  { intros uid. by rewrite count_of_fold. }
  split; [done|]. intros uid n Hin.
  assert (keys_inv (fold_left step_result log_lines agg_init)) as [_ Hnd].
  { apply fold_step_ind; [apply keys_inv_step|]. split; [done | constructor]. }
  rewrite <- Hc, (count_of_elem _ _ _ Hnd Hin). split; [done|].
  assert (Forall (fun kn => 0 < kn.2)
            (interactions_per_user (fold_left step_result log_lines agg_init))) as Hpos.
  { apply (fold_step_ind (fun a => Forall (fun kn => 0 < kn.2) (interactions_per_user a)));
      [|constructor].
    intros a log Ha. unfold step_result.
    destruct (contains "UserID=" log); [|done].
    destruct (accepted log) as [r|]; [|done]. simpl.
    generalize (i_user_id r). intros k. clear -Ha.
    induction Ha as [|[k0 n0] d H0 Hd IH]; simpl.
    - repeat constructor.
    - case_decide; constructor; simpl in *; try lia; done. }
  rewrite Forall_forall in Hpos. by apply (Hpos (uid, n)).
Qed.

(** X12.  A display name is kept only for a counted user, and it is never
    empty: every key of [user_names] is a member of [unique_users]. *)
Theorem named_users_are_counted (log_lines : list string) :
  exists a, aggregate log_lines = Ok a
    /\ forall uid name,
         user_names a !! uid = Some name -> uid ∈ unique_users a /\ name <> "".
Proof.
  eexists. split; [apply aggregate_eq|].
  apply (fold_step_ind (fun a => forall uid name,
           user_names a !! uid = Some name -> uid ∈ unique_users a /\ name <> "")).
  - intros a log Ha uid name. unfold step_result.
    destruct (contains "UserID=" log); [|apply Ha].
    destruct (accepted log) as [r|]; [|apply Ha].
    cbn [user_names unique_users record_user count_line].
    intros Hl.
    assert (user_names a !! uid = Some name -> uid ∈ {[i_user_id r]} ∪ unique_users a /\ name <> "")
      as Hold.
    { intros H. destruct (Ha _ _ H). split; [|done].
      apply elem_of_union. by right. }
    destruct (i_user_name r) as [[|c nm]|]; simpl in Hl; try by apply Hold.
    destruct (decide (i_user_id r = uid)) as [<-|Hne].
    + rewrite lookup_insert_eq in Hl. injection Hl as <-.
      split; [|done]. apply elem_of_union. left. by apply elem_of_singleton.
    + rewrite lookup_insert_ne in Hl by done. by apply Hold.
  - intros uid name. cbn [user_names agg_init]. by rewrite lookup_empty.
Qed.

(** ** Messages handled one after the other *)





(** ** From one message to the report *)


Section one_message.







End one_message.


